(** * mcp-ssh-nas: the SSH client core and the file operations

    A shallow embedding of [src/mcp_ssh_nas/client.py] ([SSHClient],
    [format_result]) and of [src/mcp_ssh_nas/operations/files.py]
    ([list_files], [read_file], [write_file]), with the properties the
    specification states about them.

    Conventions.
    - A Python [str] is a [string]; its characters are the code points
      below 256.
    - A Python [int] is a [Z].
    - The result [dict] of [SSHClient.execute] is a [gmap string pyval].
    - The paramiko library is an interface ([Paramiko]) over an abstract
      remote world; every call into it may raise.
    - Methods of [SSHClient] run in a state-and-exception monad [M] whose
      state holds the object's fields, the remote world and the trace of
      the library calls made so far. *)

From Stdlib Require Import ZArith Ascii String List Lia DecimalString.
From stdpp Require Import base option strings gmap.

Local Open Scope Z_scope.

(** ** Python strings *)

Module PyStr.

(** The one-character string [\n]. *)
Definition newline : string := String (ascii_of_nat 10) EmptyString.

(** [bool(s)] for a [str]: the empty string is falsy. *)
Definition nonempty (s : string) : bool :=
  match s with
  | EmptyString => false
  | String _ _ => true
  end.

(** [str.isspace] on one character, for the code points below 256:
    TAB..CR, FS..US, SPACE, NEL and NBSP. *)
Definition isspace (c : ascii) : bool :=
  let n := N_of_ascii c in
  ((9 <=? n) && (n <=? 13) || (28 <=? n) && (n <=? 32)
   || (n =? 133) || (n =? 160))%N.

(** [s.lstrip()] *)
Fixpoint lstrip (s : string) : string :=
  match s with
  | EmptyString => EmptyString
  | String c r => if isspace c then lstrip r else s
  end.

(** [s.rstrip()] *)
Fixpoint rstrip (s : string) : string :=
  match s with
  | EmptyString => EmptyString
  | String c r =>
      let r' := rstrip r in
      if negb (nonempty r') && isspace c then EmptyString else String c r'
  end.

(** [s.strip()] *)
Definition strip (s : string) : string := rstrip (lstrip s).

(** [s.startswith(p)] *)
Fixpoint startswith (p s : string) : bool :=
  match p, s with
  | EmptyString, _ => true
  | String a p', String b s' => if Ascii.eqb a b then startswith p' s' else false
  | String _ _, EmptyString => false
  end.

(** [sub in s] *)
Fixpoint contains (sub s : string) : bool :=
  startswith sub s ||
  match s with
  | EmptyString => false
  | String _ r => contains sub r
  end.

(** The scan of [s.replace(old, new)] for a non-empty [old]: [skip] is
    the number of characters of the current match still to be dropped. *)
Fixpoint replace_scan (old new : string) (skip : nat) (s : string) : string :=
  match s with
  | EmptyString => EmptyString
  | String c r =>
      match skip with
      | S k => replace_scan old new k r
      | O =>
          if startswith old s
          then new +:+ replace_scan old new (Nat.pred (String.length old)) r
          else String c (replace_scan old new O r)
      end
  end.

(** The insertion of [new] before every character and at the end, which
    is what [s.replace("", new)] does. *)
Fixpoint intersperse (new s : string) : string :=
  match s with
  | EmptyString => new
  | String c r => new +:+ String c (intersperse new r)
  end.

(** [s.replace(old, new)]: every non-overlapping occurrence, leftmost
    first. *)
Definition replace (old new s : string) : string :=
  if nonempty old then replace_scan old new O s else intersperse new s.

(** [str(n)] for an [int]. *)
Definition of_int (n : Z) : string := NilZero.string_of_int (Z.to_int n).

End PyStr.

(** ** Python values and dicts *)

Inductive pyval : Type :=
| VNone
| VBool (b : bool)
| VInt (n : Z)
| VStr (s : string).

(** [bool(v)] *)
Definition truthy (v : pyval) : bool :=
  match v with
  | VNone => false
  | VBool b => b
  | VInt n => negb (n =? 0)
  | VStr s => PyStr.nonempty s
  end.

(** [str(v)], which is also what an f-string field [{v}] renders. *)
Definition py_str (v : pyval) : string :=
  match v with
  | VNone => "None"
  | VBool true => "True"
  | VBool false => "False"
  | VInt n => PyStr.of_int n
  | VStr s => s
  end.

Abbreviation dict := (gmap string pyval).

(** [d.get(k)] *)
Definition dict_get (d : dict) (k : string) : pyval := default VNone (d !! k).

(** [d.get(k, dflt)] *)
Definition dict_get_or (d : dict) (k : string) (dflt : pyval) : pyval :=
  default dflt (d !! k).

(** [s + v] for a [str] [s]: a [TypeError] ([None]) unless [v] is a [str]. *)
Definition str_add (s : string) (v : pyval) : option string :=
  match v with
  | VStr t => Some (s +:+ t)
  | _ => None
  end.

(** ** [format_result] (client.py) *)

(** [None] stands for the [TypeError] of [output += result["stdout"]] on a
    truthy [stdout] that is not a [str]. *)
Definition format_result (result : dict) : option string :=
  if truthy (dict_get result "success") then
    let output := "" in
    output ← (if truthy (dict_get result "stdout")
              then str_add output (dict_get result "stdout")
              else Some output);
    let output :=
      if truthy (dict_get result "stderr") then
        let output := if PyStr.nonempty output then output +:+ PyStr.newline else output in
        output +:+ "STDERR: " +:+ py_str (dict_get result "stderr")
      else output in
    let stripped := PyStr.strip output in
    Some (if PyStr.nonempty stripped then stripped
          else "Command completed successfully (no output)")
  else
    let error := dict_get_or result "error" (VStr "Unknown error") in
    let stderr := dict_get_or result "stderr" (VStr "") in
    Some ("Error: " +:+ py_str error +:+
          (if truthy stderr then PyStr.newline +:+ py_str stderr else "")).


(** ** Exceptions *)

(** The classes [SSHClient.execute] tells apart.  Every exception the
    library raises is an instance of [Exception]; [SSHException] and, below
    it, [AuthenticationException] are paramiko's. *)
Inductive exn_class : Type :=
| PyException
| SSHException
| AuthenticationException.

(** An exception object: its most specific class among the three, and
    [str(e)]. *)
Record exn : Type := Exn { exn_cls : exn_class; exn_msg : string }.

(** [issubclass(c, d)]: [AuthenticationException] derives from
    [SSHException], which derives from [Exception]. *)
Definition issubclass (c d : exn_class) : bool :=
  match d, c with
  | PyException, _ => true
  | SSHException, (SSHException | AuthenticationException) => true
  | AuthenticationException, AuthenticationException => true
  | _, _ => false
  end.

(** [isinstance(e, c)], the test an [except c] clause makes. *)
Definition isinstance (e : exn) (c : exn_class) : bool :=
  issubclass (exn_cls e) c.

Inductive outcome (A : Type) : Type :=
| Return (a : A)
| Raise (e : exn).
Arguments Return {A} a.
Arguments Raise {A} e.

(** ** The paramiko interface *)

(** What [client.py] calls on paramiko, over a remote world [World]:
    [Session] is a connected [paramiko.SSHClient], [Channel] one of the
    three file objects [exec_command] returns.  [decode_utf8_replace] is
    [bytes.decode("utf-8", errors="replace")], which never raises. *)
Class Paramiko (World Session Channel : Type) : Type := {
  ssh_connect : string -> Z -> string -> string -> Z ->
                World -> outcome Session * World;
  ssh_exec_command : Session -> string -> Z ->
                     World -> outcome (Channel * Channel * Channel) * World;
  ssh_close : Session -> World -> outcome unit * World;
  ssh_recv_exit_status : Channel -> World -> outcome Z * World;
  ssh_read : Channel -> World -> outcome (list Byte.byte) * World;
  decode_utf8_replace : list Byte.byte -> string
}.

(** One call into the library, as recorded in the trace. *)
Inductive event (Session Channel : Type) : Type :=
| EvConnect (hostname : string) (port : Z) (username password : string) (timeout : Z)
| EvExecCommand (s : Session) (command : string) (timeout : Z)
| EvClose (s : Session)
| EvRecvExitStatus (c : Channel)
| EvRead (c : Channel).
Arguments EvConnect {Session Channel}.
Arguments EvExecCommand {Session Channel}.
Arguments EvClose {Session Channel}.
Arguments EvRecvExitStatus {Session Channel}.
Arguments EvRead {Session Channel}.

(** ** [SSHClient] (client.py) *)

Record SSHClient (Session : Type) : Type := mkSSHClient {
  host : string;
  port : Z;
  user : string;
  password : string;
  _client : option Session
}.
Arguments mkSSHClient {Session}.
Arguments host {Session}.
Arguments port {Session}.
Arguments user {Session}.
Arguments password {Session}.
Arguments _client {Session}.

(** The [settings] object of config.py. *)
Record Settings : Type := mkSettings {
  settings_host : string;
  settings_port : Z;
  settings_user : string;
  settings_password : string
}.

(** [x or y] for an optional [str] argument [x]. *)
Definition str_or (x : option string) (y : string) : string :=
  match x with
  | Some s => if PyStr.nonempty s then s else y
  | None => y
  end.

(** [x or y] for an optional [int] argument [x]. *)
Definition int_or (x : option Z) (y : Z) : Z :=
  match x with
  | Some n => if n =? 0 then y else n
  | None => y
  end.

(** [SSHClient.__init__] *)
Definition SSHClient_init {Session : Type} (settings : Settings)
    (host : option string) (port : option Z) (user password : option string)
  : SSHClient Session :=
  {| host := PyStr.strip (str_or host (settings_host settings));
     port := int_or port (settings_port settings);
     user := PyStr.strip (str_or user (settings_user settings));
     password := PyStr.strip (str_or password (settings_password settings));
     _client := None |}.

(** [SSHClient.configured] *)
Definition configured {Session : Type} (self : SSHClient Session) : bool :=
  PyStr.nonempty (host self) && PyStr.nonempty (user self)
  && PyStr.nonempty (password self).

Declare Scope py_scope.
Delimit Scope py_scope with py.

Section Client.

Context {World Session Channel : Type}.
Context `{!Paramiko World Session Channel}.

(** The state a method runs in: the object, the remote world, and the
    library calls made so far (oldest first). *)
Record machine : Type := mkMachine {
  self : SSHClient Session;
  world : World;
  trace : list (event Session Channel)
}.

(** State and exceptions.  A raised exception keeps the state reached:
    Python does not undo assignments or remote effects. *)
Definition M (A : Type) : Type := machine -> outcome A * machine.

Definition ret {A : Type} (a : A) : M A := fun m => (Return a, m).

Definition raise {A : Type} (e : exn) : M A := fun m => (Raise e, m).

Definition bind {A B : Type} (c : M A) (k : A -> M B) : M B :=
  fun m =>
    match c m with
    | (Return a, m') => k a m'
    | (Raise e, m') => (Raise e, m')
    end.

(** [try: body / except Exception as e: handler e] *)
Definition try_except {A : Type} (body : M A) (handler : exn -> M A) : M A :=
  fun m =>
    match body m with
    | (Return a, m') => (Return a, m')
    | (Raise e, m') => handler e m'
    end.

Notation "x <- c ;; k" := (bind c (fun x => k))
  (at level 100, c at next level, right associativity) : py_scope.
Notation "c ;;; k" := (bind c (fun _ => k))
  (at level 100, right associativity) : py_scope.
Local Open Scope py_scope.

(** A call into paramiko: it acts on the world and is appended to the
    trace, whether it returns or raises. *)
Definition lib {A : Type} (ev : event Session Channel)
    (call : World -> outcome A * World) : M A :=
  fun m =>
    let '(r, w) := call (world m) in
    (r, {| self := self m; world := w; trace := trace m ++ [ev] |}).

Definition get_self : M (SSHClient Session) := fun m => (Return (self m), m).

(** [self._client = c] *)
Definition set_client (c : option Session) : M unit :=
  fun m =>
    (Return tt,
     {| self := {| host := host (self m); port := port (self m);
                   user := user (self m); password := password (self m);
                   _client := c |};
        world := world m; trace := trace m |}).

Definition exec_command (s : Session) (command : string) (timeout : Z)
  : M (Channel * Channel * Channel) :=
  lib (EvExecCommand s command timeout) (ssh_exec_command s command timeout).

Definition close_session (s : Session) : M unit :=
  lib (EvClose s) (ssh_close s).

Definition recv_exit_status (c : Channel) : M Z :=
  lib (EvRecvExitStatus c) (ssh_recv_exit_status c).

Definition read (c : Channel) : M (list Byte.byte) :=
  lib (EvRead c) (ssh_read c).

(** [SSHClient._connect]: the construction of the paramiko client and its
    host-key policy are part of the library's [connect]. *)
Definition _connect : M Session :=
  me <- get_self ;;
  lib (EvConnect (host me) (port me) (user me) (password me) 30)
      (ssh_connect (host me) (port me) (user me) (password me) 30).

(** [SSHClient._get_client] *)
Definition _get_client : M Session :=
  me <- get_self ;;
  alive <-
    match _client me with
    | Some cached =>
        try_except
          (exec_command cached "echo" 5 ;;; ret (Some cached))
          (fun _ =>
             try_except (close_session cached) (fun _ => ret tt) ;;;
             set_client None ;;;
             ret None)
    | None => ret None
    end ;;
  match alive with
  | Some cached => ret cached
  | None =>
      fresh <- _connect ;;
      set_client (Some fresh) ;;;
      ret fresh
  end.

Definition not_configured_error : string :=
  "NAS credentials not configured. Set NAS_HOST, NAS_USER, and NAS_PASSWORD.".

Definition authentication_error : string :=
  "Authentication failed. Check username and password.".

(** [{"success": False, "error": msg}] *)
Definition error_result (msg : string) : dict :=
  <["success" := VBool false]> (<["error" := VStr msg]> ∅).

(** [{"success": exit_status == 0, "exit_code": ..., "stdout": ...,
    "stderr": ...}] *)
Definition run_result (exit_status : Z) (stdout_text stderr_text : string) : dict :=
  <["success" := VBool (exit_status =? 0)]>
    (<["exit_code" := VInt exit_status]>
       (<["stdout" := VStr stdout_text]>
          (<["stderr" := VStr stderr_text]> ∅))).

(** The [try] block of [SSHClient.execute]. *)
Definition execute_body (command : string) (timeout : Z) : M dict :=
  client <- _get_client ;;
  chans <- exec_command client command timeout ;;
  let '(stdin, stdout, stderr) := chans in
  exit_status <- recv_exit_status stdout ;;
  stdout_bytes <- read stdout ;;
  let stdout_text := decode_utf8_replace stdout_bytes in
  stderr_bytes <- read stderr ;;
  let stderr_text := decode_utf8_replace stderr_bytes in
  ret (run_result exit_status stdout_text stderr_text).

(** The [except] clauses of [SSHClient.execute], tried in order. *)
Definition execute_handler (e : exn) : M dict :=
  if isinstance e AuthenticationException then
    ret (error_result authentication_error)
  else if isinstance e SSHException then
    ret (error_result ("SSH error: " +:+ exn_msg e))
  else
    ret (error_result ("Connection error: " +:+ exn_msg e)).

(** [SSHClient.execute] *)
Definition execute (command : string) (timeout : Z) : M dict :=
  me <- get_self ;;
  if negb (configured me) then ret (error_result not_configured_error)
  else try_except (execute_body command timeout) execute_handler.

(** [SSHClient.close] *)
Definition close : M unit :=
  me <- get_self ;;
  match _client me with
  | Some cached =>
      try_except (close_session cached) (fun _ => ret tt) ;;;
      set_client None
  | None => ret tt
  end.

(** ** File operations (operations/files.py) *)

(** A [TypeError] raised inside [format_result] reaches the caller. *)
Definition formatted (r : option string) : M string :=
  match r with
  | Some s => ret s
  | None => raise (Exn PyException "can only concatenate str to str")
  end.

(** [list_files] *)
Definition list_files (path : string) (all long : bool) : M string :=
  let flags := if long then "-lh" else "" in
  let flags := if all then flags +:+ "a" else flags in
  let cmd := if PyStr.nonempty flags
             then "ls " +:+ flags +:+ " " +:+ path
             else "ls " +:+ path in
  result <- execute cmd 30 ;;
  formatted (format_result result).

(** [read_file] *)
Definition read_file (path : string) (lines : option Z) : M string :=
  let cmd :=
    match lines with
    | Some n =>
        if truthy (VInt n) then
          if 0 <? n
          then "head -n " +:+ PyStr.of_int n +:+ " " +:+ path
          else "tail -n " +:+ PyStr.of_int (Z.abs n) +:+ " " +:+ path
        else "cat " +:+ path
    | None => "cat " +:+ path
    end in
  result <- execute cmd 30 ;;
  formatted (format_result result).

(** [write_file] *)
Definition write_file (path content : string) (append : bool) : M string :=
  let escaped := PyStr.replace "'" "'\''" content in
  let operator := if append then ">>" else ">" in
  let cmd := "echo '" +:+ escaped +:+ "' " +:+ operator +:+ " " +:+ path in
  result <- execute cmd 30 ;;
  if truthy (dict_get result "success")
  then ret ("Successfully wrote to " +:+ path)
  else formatted (format_result result).

(** [v.strip()]: an [AttributeError] unless [v] is a [str]. *)
Definition str_strip (v : pyval) : M string :=
  match v with
  | VStr s => ret (PyStr.strip s)
  | _ => raise (Exn PyException "object has no attribute strip")
  end.

(** [file_exists] *)
Definition file_exists (path : string) : M dict :=
  result <- execute ("test -e " +:+ path +:+ " && echo 'exists' || echo 'not found'") 30 ;;
  output <- str_strip (dict_get_or result "stdout" (VStr "")) ;;
  let exists_ := String.eqb output "exists" in
  if exists_ then
    type_result <- execute ("file " +:+ path) 30 ;;
    file_info <- str_strip (dict_get_or type_result "stdout" (VStr "")) ;;
    ret (<["exists" := VBool true]> (<["info" := VStr file_info]> ∅))
  else ret (<["exists" := VBool false]> ∅).

(** ** Core execution (operations/exec.py) *)

(** [exec.execute] *)
Definition exec_execute (command : string) (timeout : Z) : M string :=
  if negb (PyStr.nonempty command) then ret "Error: No command provided"
  else
    result <- execute command timeout ;;
    formatted (format_result result).


(** ** Docker operations (operations/docker.py) *)



(** ** Service operations (operations/services.py) *)

(** [service_status] *)
Definition service_status (service : string) : M string :=
  let cmd := "systemctl status " +:+ service +:+ " 2>/dev/null || service "
             +:+ service +:+ " status" in
  result <- execute cmd 30 ;;
  formatted (format_result result).

(** ** System operations (operations/system.py) *)





(** ** Specification vocabulary *)

(** The statements of the [try] block of [SSHClient.execute] that follow
    [client = self._get_client()]. *)
Definition run_on (client : Session) (command : string) (timeout : Z) : M dict :=
  chans <- exec_command client command timeout ;;
  let '(stdin, stdout, stderr) := chans in
  exit_status <- recv_exit_status stdout ;;
  stdout_bytes <- read stdout ;;
  let stdout_text := decode_utf8_replace stdout_bytes in
  stderr_bytes <- read stderr ;;
  let stderr_text := decode_utf8_replace stderr_bytes in
  ret (run_result exit_status stdout_text stderr_text).

(** [issues_then] at any timeout. *)
Definition issues_with {A : Type} (op : M A) (cmd : string) (timeout : Z)
    (k : dict -> M A) : Prop :=
  forall m, op m = bind (execute cmd timeout) k m.

(** An operation that sends [cmd] with [timeout] and returns the formatted
    result. *)
Definition renders (op : M string) (cmd : string) (timeout : Z) : Prop :=
  issues_with op cmd timeout (fun result => formatted (format_result result)).


(** The fields read from the configuration are the same in both objects. *)
Definition same_config (a b : SSHClient Session) : Prop :=
  host a = host b /\ port a = port b /\ user a = user b
  /\ password a = password b.


(** An operation issues [cmd] and continues with [k]: it behaves as
    [client.execute(cmd)], with the default timeout of 30, followed by
    [k] on the result. *)
Definition issues_then {A : Type} (op : M A) (cmd : string) (k : dict -> M A) : Prop :=
  forall m, op m = bind (execute cmd 30) k m.

(** The common continuation [return format_result(result)]. *)
Definition issues (op : M string) (cmd : string) : Prop :=
  issues_then op cmd (fun result => formatted (format_result result)).

End Client.

Arguments machine : clear implicits.

(** The number of connection attempts in a trace. *)
Definition connects {Session Channel : Type} (t : list (event Session Channel)) : nat :=
  List.length
    (List.filter (fun ev => match ev with EvConnect _ _ _ _ _ => true | _ => false end) t).

(** Every character of [s] is whitespace ([s] may be empty). *)
Fixpoint blank (s : string) : bool :=
  match s with
  | EmptyString => true
  | String c r => PyStr.isspace c && blank r
  end.

(** [sub] occurs in [s]. *)
Definition occurs_in (sub s : string) : Prop :=
  exists a b, s = a +:+ sub +:+ b.

(** [first] occurs in [s] and [second] occurs after that occurrence. *)
Definition occurs_then (first second s : string) : Prop :=
  exists a b c, s = a +:+ first +:+ b +:+ second +:+ c.

(** The text of a successful result before stripping: [stdout], then, for
    a non-empty [stderr], the [STDERR: ] line, on a line of its own when
    [stdout] is not empty. *)
Definition success_text (out err : string) : string :=
  out +:+
  (if PyStr.nonempty err
   then (if PyStr.nonempty out then PyStr.newline else "") +:+ "STDERR: " +:+ err
   else "").

(** The escaping the specification words: each single quote becomes the
    four characters quote, backslash, quote, quote; every other character
    stays. *)
Fixpoint escape_single_quotes (s : string) : string :=
  match s with
  | EmptyString => EmptyString
  | String c r =>
      (if Ascii.eqb c "'" then "'\''" else String c EmptyString)
      +:+ escape_single_quotes r
  end.

(** ** A scripted host

    A concrete [Paramiko] in the manner of the repository's tests, which
    give the mocked [exec_command] a list of results to hand out in order:
    the world is the list of replies still to come, and every library call
    consumes one.  Its decoder maps each byte to the character of the same
    code, which is [decode("utf-8", errors="replace")] on ASCII bytes only;
    the scripts used below are ASCII. *)
Module Scripted.

Inductive reply : Type :=
| Ok (code : Z) (data : list Byte.byte)
| Fail (e : exn).

Definition exhausted : exn := Exn PyException "StopIteration".

Definition next {A : Type} (f : Z -> list Byte.byte -> A) (w : list reply)
  : outcome A * list reply :=
  match w with
  | Ok code data :: w' => (Return (f code data), w')
  | Fail e :: w' => (Raise e, w')
  | [] => (Raise exhausted, [])
  end.

#[export] Instance paramiko : Paramiko (list reply) nat nat := {|
  ssh_connect := fun _ _ _ _ _ => next (fun code _ => Z.to_nat code);
  ssh_exec_command := fun _ _ _ => next (fun _ _ => (0%nat, 1%nat, 2%nat));
  ssh_close := fun _ => next (fun _ _ => tt);
  ssh_recv_exit_status := fun _ => next (fun code _ => code);
  ssh_read := fun _ => next (fun _ data => data);
  decode_utf8_replace := string_of_list_byte
|}.

Definition bytes (s : string) : list Byte.byte := list_byte_of_string s.

(** A configured client, as the tests' fixture builds it. *)
Definition testclient (cached : option nat) : SSHClient nat :=
  {| host := "10.0.0.1"; port := 22; user := "testuser";
     password := "testpass"; _client := cached |}.

Definition start (cached : option nat) (script : list reply)
  : machine (list reply) nat nat :=
  {| self := testclient cached; world := script; trace := [] |}.

(** The replies a live cached session gives to one [execute]: the probe,
    [exec_command], the exit status, and the two streams. *)
Definition live (code : Z) (out err : string) : list reply :=
  [Ok 0 []; Ok 0 []; Ok code []; Ok 0 (bytes out); Ok 0 (bytes err)].


(** The test client in the middle of a run: the replies still to come
    and the calls made so far. *)
Definition at_state (cached : option nat) (script : list reply)
    (calls : list (event nat nat)) : machine (list reply) nat nat :=
  {| self := testclient cached; world := script; trace := calls |}.

(** The calls of a first [execute] of [ls] that connects as session 3. *)
Definition first_ls : list (event nat nat) :=
  [EvConnect "10.0.0.1" 22 "testuser" "testpass" 30;
   EvExecCommand 3%nat "ls" 30;
   EvRecvExitStatus 1%nat; EvRead 1%nat; EvRead 2%nat].

(** A client without a password. *)
Definition unconfigured : machine (list reply) nat nat :=
  {| self := {| host := "10.0.0.1"; port := 22; user := "testuser";
                password := ""; _client := None |};
     world := []; trace := [] |}.

End Scripted.

(** * Properties *)

(** ** Strings *)

Lemma append_cons (c : ascii) (a b : string) :
  String c a +:+ b = String c (a +:+ b).
Proof. reflexivity. Qed.

Lemma append_nil_l (s : string) : "" +:+ s = s.
Proof. reflexivity. Qed.

Lemma append_nil_r (s : string) : s +:+ "" = s.
Proof.
  induction s as [|c s IH]; [reflexivity|].
  rewrite append_cons, IH. reflexivity.
Qed.

Lemma append_assoc (a b c : string) : (a +:+ b) +:+ c = a +:+ b +:+ c.
Proof.
  induction a as [|x a IH]; [reflexivity|].
  rewrite !append_cons, IH. reflexivity.
Qed.

Lemma length_append (a b : string) :
  String.length (a +:+ b) = (String.length a + String.length b)%nat.
Proof.
  induction a as [|x a IH]; [reflexivity|].
  rewrite append_cons. cbn [String.length]. rewrite IH. reflexivity.
Qed.

(** [replace] with the one-character pattern of [write_file] is the
    character-by-character escaping. *)
Lemma replace_single_quote (s : string) :
  PyStr.replace "'" "'\''" s = escape_single_quotes s.
Proof.
  unfold PyStr.replace; simpl.
  induction s as [|c r IH]; [reflexivity|].
  cbn [PyStr.replace_scan PyStr.startswith escape_single_quotes].
  rewrite (Ascii.eqb_sym "'" c).
  destruct (Ascii.eqb c "'"); cbn [String.length Nat.pred].
  - destruct r; rewrite IH; reflexivity.
  - destruct r; rewrite IH; reflexivity.
Qed.

(** ** Stripping *)

Lemma lstrip_length (s : string) :
  (String.length (PyStr.lstrip s) <= String.length s)%nat.
Proof.
  induction s as [|c r IH]; cbn [PyStr.lstrip String.length]; [lia|].
  destruct (PyStr.isspace c); cbn [String.length]; lia.
Qed.

(** A string that [lstrip] leaves alone does not start with whitespace. *)
Lemma lstrip_fixed_head (c : ascii) (r : string) :
  PyStr.lstrip (String c r) = String c r -> PyStr.isspace c = false.
Proof.
  cbn [PyStr.lstrip]. destruct (PyStr.isspace c); [|reflexivity].
  intros E. pose proof (lstrip_length r) as L. rewrite E in L.
  cbn [String.length] in L. lia.
Qed.

Lemma lstrip_fixed_append (a b : string) :
  a <> "" -> PyStr.lstrip a = a -> PyStr.lstrip (a +:+ b) = a +:+ b.
Proof.
  destruct a as [|c r]; [congruence|]. intros _ E.
  rewrite append_cons. cbn [PyStr.lstrip].
  rewrite (lstrip_fixed_head c r E). reflexivity.
Qed.

Lemma lstrip_success_text (out err : string) :
  PyStr.lstrip out = out ->
  PyStr.lstrip (success_text out err) = success_text out err.
Proof.
  intros E. unfold success_text.
  destruct out as [|c r].
  - destruct err; reflexivity.
  - apply lstrip_fixed_append; [congruence | exact E].
Qed.

(** ** The result formatter *)

(** What [format_result] computes on a successful result whose streams are
    strings. *)
Lemma format_success_equation (r : dict) (out err : string) :
  r !! "success" = Some (VBool true) ->
  r !! "stdout" = Some (VStr out) ->
  r !! "stderr" = Some (VStr err) ->
  format_result r =
  Some (if PyStr.nonempty (PyStr.strip (success_text out err))
        then PyStr.strip (success_text out err)
        else "Command completed successfully (no output)").
Proof.
  intros Hs Ho He. unfold format_result, dict_get, success_text.
  rewrite Hs, Ho, He.
  destruct out as [|c out], err as [|e err]; cbn -[PyStr.strip];
    rewrite ?append_nil_l, ?append_nil_r; cbn [PyStr.nonempty];
    rewrite ?append_assoc; reflexivity.
Qed.

(** C4, as amended.  On a successful result [format_result] gives the
    stripped text of [stdout] followed, for a non-empty [stderr], by
    [STDERR: ] and [stderr], or the no-output sentence when nothing
    remains.  It contains [stdout] verbatim, and the [STDERR: ] text after
    it, whenever [stdout] has no leading whitespace and the text has no
    trailing whitespace. *)
Theorem format_result_success (r : dict) (out err : string) :
  r !! "success" = Some (VBool true) ->
  r !! "stdout" = Some (VStr out) ->
  r !! "stderr" = Some (VStr err) ->
  exists res,
    format_result r = Some res
    /\ res = (if PyStr.nonempty (PyStr.strip (success_text out err))
              then PyStr.strip (success_text out err)
              else "Command completed successfully (no output)")
    /\ (PyStr.lstrip out = out ->
        PyStr.rstrip (success_text out err) = success_text out err ->
        occurs_in out res
        /\ (err <> "" -> occurs_then out ("STDERR: " +:+ err) res)).
Proof.
  intros Hs Ho He. eexists. split; [|split]; [|reflexivity|].
  { apply (format_success_equation r out err Hs Ho He). }
  intros Hl Hr. unfold PyStr.strip.
  rewrite (lstrip_success_text out err Hl), Hr.
  unfold success_text.
  destruct err as [|e err].
  - rewrite append_nil_r. split; [|congruence].
    destruct out as [|c out]; cbn [PyStr.nonempty].
    + exists "", "Command completed successfully (no output)". reflexivity.
    + exists "", "". rewrite append_nil_r. reflexivity.
  - cbn [PyStr.nonempty].
    assert (Hne : PyStr.nonempty
                    (out +:+ (if PyStr.nonempty out then PyStr.newline else "")
                         +:+ "STDERR: " +:+ String e err) = true).
    { destruct out; reflexivity. }
    rewrite Hne. split.
    + exists "", ((if PyStr.nonempty out then PyStr.newline else "")
                  +:+ "STDERR: " +:+ String e err).
      reflexivity.
    + intros _.
      exists "", (if PyStr.nonempty out then PyStr.newline else ""), "".
      rewrite append_nil_r. reflexivity.
Qed.

(** C8. On a result with [success] false and no [error] key, which is
    what a command that ran and exited non-zero leaves, [format_result]
    answers [Error: Unknown error], then a newline and [stderr] when
    [stderr] is present and not empty; [stdout] plays no part. *)
Theorem format_result_failed_command (r : dict) (err : option string) :
  r !! "success" = Some (VBool false) ->
  r !! "error" = None ->
  r !! "stderr" = VStr <$> err ->
  format_result r =
  Some ("Error: Unknown error" +:+
        match err with
        | Some s => if PyStr.nonempty s then PyStr.newline +:+ s else ""
        | None => ""
        end)
  /\ forall v, format_result (<["stdout" := v]> r) = format_result r.
Proof.
  intros Hs He Hr. split.
  - unfold format_result, dict_get, dict_get_or. rewrite Hs, He, Hr.
    destruct err as [[|c s]|]; reflexivity.
  - intros v. unfold format_result, dict_get, dict_get_or.
    rewrite (lookup_insert_ne r "stdout" "success") by done.
    rewrite (lookup_insert_ne r "stdout" "error") by done.
    rewrite (lookup_insert_ne r "stdout" "stderr") by done.
    rewrite Hs. reflexivity.
Qed.

(** ** Construction *)

(** A client built without arguments from the default settings is not
    configured, whatever the session type. *)
Lemma SSHClient_init_default_unconfigured (Session : Type) :
  configured (SSHClient_init (Session := Session)
                (mkSettings "" 22 "" "") None None None None) = false.
Proof. reflexivity. Qed.

(** Credentials made of whitespace only are stripped to nothing. *)
Lemma SSHClient_init_blank_password (Session : Type) :
  configured (SSHClient_init (Session := Session)
                (mkSettings "10.0.0.1" 22 "admin" "") None None None
                (Some (" " +:+ PyStr.newline))) = false.
Proof. reflexivity. Qed.

(** ** The two shapes of a result *)

Lemma error_result_lookup (msg : string) :
  error_result msg !! "success" = Some (VBool false)
  /\ error_result msg !! "error" = Some (VStr msg)
  /\ error_result msg !! "exit_code" = None
  /\ error_result msg !! "stdout" = None
  /\ error_result msg !! "stderr" = None.
Proof. unfold error_result. repeat split; reflexivity. Qed.

Lemma run_result_lookup (code : Z) (out err : string) :
  run_result code out err !! "success" = Some (VBool (code =? 0))
  /\ run_result code out err !! "exit_code" = Some (VInt code)
  /\ run_result code out err !! "stdout" = Some (VStr out)
  /\ run_result code out err !! "stderr" = Some (VStr err)
  /\ run_result code out err !! "error" = None.
Proof. unfold run_result. repeat split; reflexivity. Qed.

Section Properties.

Context {World Session Channel : Type}.
Context `{!Paramiko World Session Channel}.

Implicit Types (m : machine World Session Channel).
Implicit Types (path command : string).

(** ** Building the command of a file operation *)

(** C9. [list_files] with [long = False] and [all = True] builds the
    command [ls a <path>]: the letter is appended to an empty flag
    string, so no dash precedes it. *)
Theorem list_files_all_without_long path :
  issues (list_files path true false) ("ls a " +:+ path).
Proof. intros m. reflexivity. Qed.

(** C10. [read_file] with [lines = 0] issues [cat <path>], the same as
    with [lines = None]: zero is falsy, so it counts as unset and no
    [head -n 0] is built. *)
Theorem read_file_zero_lines path :
  issues (read_file path (Some 0)) ("cat " +:+ path)
  /\ forall m, read_file path (Some 0) m = read_file path None m.
Proof. split; intros m; reflexivity. Qed.


(** C6. [write_file] escapes every single quote of [content] as
    quote-backslash-quote-quote, issues [echo '<escaped>' > <path>]
    ([>>] when [append]), and answers [Successfully wrote to <path>]
    when the result of [execute] has [success] true. *)
Theorem write_file_command path (content : string) (append : bool) :
  issues_then
    (write_file path content append)
    ("echo '" +:+ escape_single_quotes content +:+ "' "
     +:+ (if append then ">>" else ">") +:+ " " +:+ path)
    (fun result =>
       if truthy (dict_get result "success")
       then ret ("Successfully wrote to " +:+ path)
       else formatted (format_result result))
  /\ forall m result m',
      execute ("echo '" +:+ escape_single_quotes content +:+ "' "
               +:+ (if append then ">>" else ">") +:+ " " +:+ path) 30 m
      = (Return result, m') ->
      result !! "success" = Some (VBool true) ->
      write_file path content append m
      = (Return ("Successfully wrote to " +:+ path), m').
Proof.
  split.
  - intros m. unfold write_file. rewrite replace_single_quote. reflexivity.
  - intros m result m' Hexec Hsucc.
    unfold write_file. rewrite replace_single_quote.
    unfold bind. rewrite Hexec.
    unfold dict_get. rewrite Hsucc. reflexivity.
Qed.

(** ** [execute] *)


(** The [try] block either raises or returns a result of the second
    shape. *)
Lemma execute_body_returns command timeout m (d : dict) mb :
  execute_body command timeout m = (Return d, mb) ->
  exists code out err, d = run_result code out err.
Proof.
  unfold execute_body, bind, ret.
  destruct (_get_client m) as [[client|e] m1]; [|discriminate].
  destruct (exec_command client command timeout m1) as [[[[i o] e']|e] m2];
    [|discriminate].
  destruct (recv_exit_status o m2) as [[code|e] m3]; [|discriminate].
  destruct (read o m3) as [[ob|e] m4]; [|discriminate].
  destruct (read e' m4) as [[eb|e] m5]; [|discriminate].
  intros [= <- _]. eauto.
Qed.

(** C3. A client whose host, user or password is empty answers every
    command with [success] false and an error that says [not
    configured], at once: the machine is returned as it was, so no
    library call was made (the trace and the world are the same) and
    the stored [_client] is unchanged. *)
Theorem execute_not_configured command timeout m :
  host (self m) = "" \/ user (self m) = "" \/ password (self m) = "" ->
  exists d msg,
    execute command timeout m = (Return d, m)
    /\ d !! "success" = Some (VBool false)
    /\ d !! "error" = Some (VStr msg)
    /\ PyStr.contains "not configured" msg = true.
Proof.
  intros Hempty.
  assert (Hc : configured (self m) = false).
  { unfold configured.
    destruct Hempty as [-> | [-> | ->]]; cbn [PyStr.nonempty];
      rewrite ?andb_false_r; reflexivity. }
  exists (error_result not_configured_error), not_configured_error.
  split; [|split; [|split]]; try reflexivity.
  unfold execute, bind, get_self. rewrite Hc. reflexivity.
Qed.


(** C2, as amended.  Every dict [execute] returns has one of two shapes.
    Either [error] is set, [success] is false and [exit_code], [stdout]
    and [stderr] are absent, and the client is not configured or the
    [try] block raised, which it can do while getting the session,
    while sending the command, or while reading its exit status and
    output, so also after the command ran on the host.  Or [error] is
    absent, the [try] block returned, all of [exit_code], [stdout] and
    [stderr] are present, and [success] is true exactly when
    [exit_code] is 0. *)
Theorem execute_result_shape command timeout m (d : dict) m' :
  execute command timeout m = (Return d, m') ->
  (exists msg,
      d !! "error" = Some (VStr msg)
      /\ d !! "success" = Some (VBool false)
      /\ d !! "exit_code" = None
      /\ d !! "stdout" = None
      /\ d !! "stderr" = None
      /\ (configured (self m) = false
          \/ exists e, execute_body command timeout m = (Raise e, m')))
  \/ (d !! "error" = None
      /\ execute_body command timeout m = (Return d, m')
      /\ exists code out err,
          d !! "exit_code" = Some (VInt code)
          /\ d !! "stdout" = Some (VStr out)
          /\ d !! "stderr" = Some (VStr err)
          /\ d !! "success" = Some (VBool (code =? 0))).
Proof.
  unfold execute, bind, get_self, try_except.
  destruct (configured (self m)) eqn:Hc; cbn [negb].
  - destruct (execute_body command timeout m) as [[r|e] mb] eqn:Hbody.
    + intros [= <- <-]. right.
      destruct (execute_body_returns _ _ _ _ _ Hbody) as (code & out & err & ->).
      destruct (run_result_lookup code out err) as (Hs & Hx & Ho & He & Hn).
      split; [exact Hn|]. split; [reflexivity|].
      exists code, out, err. auto.
    + unfold execute_handler, ret.
      destruct (isinstance e AuthenticationException);
        [|destruct (isinstance e SSHException)];
        intros [= <- <-]; left; eexists;
        match goal with
        | |- error_result ?s !! _ = _ /\ _ =>
            destruct (error_result_lookup s) as (Hs & He & Hx & Ho & Hr)
        end;
        repeat (split; [eassumption|]); right; exists e; reflexivity.
  - unfold ret. intros [= <- <-]. left.
    exists not_configured_error.
    destruct (error_result_lookup not_configured_error) as (Hs & He & Hx & Ho & Hr).
    repeat (split; [assumption|]). left. reflexivity.
Qed.


End Properties.

(** ** The properties on the scripted host *)

Import Scripted.


Lemma execute_result_shape_witness :
  execute "ls" 30 (start (Some 7%nat) (live 0 "file1" ""))
  = (Return (run_result 0 "file1" ""),
     {| self := testclient (Some 7%nat); world := [];
        trace := [EvExecCommand 7%nat "echo" 5; EvExecCommand 7%nat "ls" 30;
                  EvRecvExitStatus 1%nat; EvRead 1%nat; EvRead 2%nat] |})
  /\ run_result 0 "file1" "" !! "error" = None
  /\ exists code,
      run_result 0 "file1" "" !! "exit_code" = Some (VInt code)
      /\ run_result 0 "file1" "" !! "success" = Some (VBool (code =? 0)).
Proof.
  match goal with |- ?run /\ _ => assert (Hrun : run) by reflexivity end.
  split; [exact Hrun|].
  destruct (execute_result_shape _ _ _ _ _ Hrun)
    as [(msg & He & _) | (Hn & _ & code & out & err & Hx & _ & _ & Hs)].
  - discriminate He.
  - split; [exact Hn|]. exists code. split; [exact Hx | exact Hs].
Defined.

(** C2 as stated fails: [error] is not set only when the command could
    not be run at all.  Here the cached session answers the probe, the
    host accepts the command and reports exit status 0, and reading
    [stdout] then times out: the result carries an [error] and no
    [exit_code], although the command ran. *)
Lemma execute_error_after_command_ran :
  execute "ls" 30
    (start (Some 7%nat)
       [Ok 0 []; Ok 0 []; Ok 0 []; Fail (Exn PyException "timed out")])
  = (Return (error_result "Connection error: timed out"),
     at_state (Some 7%nat) []
       [EvExecCommand 7%nat "echo" 5; EvExecCommand 7%nat "ls" 30;
        EvRecvExitStatus 1%nat; EvRead 1%nat])
  /\ error_result "Connection error: timed out" !! "error"
     = Some (VStr "Connection error: timed out")
  /\ error_result "Connection error: timed out" !! "exit_code" = None
  /\ ssh_exec_command 7%nat "ls" 30
       [Ok 0 []; Ok 0 []; Fail (Exn PyException "timed out")]
     = (Return (0%nat, 1%nat, 2%nat),
        [Ok 0 []; Fail (Exn PyException "timed out")])
  /\ ssh_recv_exit_status 1%nat
       [Ok 0 []; Fail (Exn PyException "timed out")]
     = (Return 0, [Fail (Exn PyException "timed out")]).
Proof. repeat split. Qed.

Lemma execute_not_configured_witness :
  password (self unconfigured) = ""
  /\ exists d msg,
      execute "ls" 30 unconfigured = (Return d, unconfigured)
      /\ d !! "success" = Some (VBool false)
      /\ d !! "error" = Some (VStr msg)
      /\ PyStr.contains "not configured" msg = true.
Proof.
  split; [reflexivity|].
  apply (execute_not_configured "ls" 30 unconfigured).
  right; right; reflexivity.
Defined.

Lemma format_result_success_witness :
  exists res,
    format_result (run_result 0 "file1" "warn") = Some res
    /\ occurs_in "file1" res
    /\ occurs_then "file1" "STDERR: warn" res.
Proof.
  destruct (format_result_success (run_result 0 "file1" "warn") "file1" "warn"
              eq_refl eq_refl eq_refl)
    as (res & Hfmt & _ & Hocc).
  exists res. split; [exact Hfmt|].
  destruct (Hocc eq_refl eq_refl) as [Hout Herr].
  split; [exact Hout | apply Herr; discriminate].
Defined.

(** C4 as stated fails: the trailing newline of [stdout] is stripped, so
    [stdout] is not in the answer verbatim. *)
Lemma format_result_strips_stdout :
  run_result 0 ("hello" +:+ PyStr.newline) "" !! "success" = Some (VBool true)
  /\ run_result 0 ("hello" +:+ PyStr.newline) "" !! "stdout"
     = Some (VStr ("hello" +:+ PyStr.newline))
  /\ format_result (run_result 0 ("hello" +:+ PyStr.newline) "") = Some "hello"
  /\ ~ occurs_in ("hello" +:+ PyStr.newline) "hello".
Proof.
  repeat split; try reflexivity.
  intros (a & b & E).
  apply (f_equal String.length) in E.
  rewrite !length_append in E. cbn in E. lia.
Qed.

Lemma format_result_failed_command_witness :
  format_result (run_result 2 "partial" "ls: cannot access")
  = Some ("Error: Unknown error" +:+ PyStr.newline +:+ "ls: cannot access").
Proof.
  apply (proj1 (format_result_failed_command
                  (run_result 2 "partial" "ls: cannot access")
                  (Some "ls: cannot access") eq_refl eq_refl eq_refl)).
Defined.



Lemma write_file_command_witness :
  write_file "/tmp/x" "it's" false (start (Some 7%nat) (live 0 "" ""))
  = (Return "Successfully wrote to /tmp/x",
     {| self := testclient (Some 7%nat); world := [];
        trace := [EvExecCommand 7%nat "echo" 5;
                  EvExecCommand 7%nat "echo 'it'\''s' > /tmp/x" 30;
                  EvRecvExitStatus 1%nat; EvRead 1%nat; EvRead 2%nat] |}).
Proof.
  apply (proj2 (write_file_command "/tmp/x" "it's" false)
           (start (Some 7%nat) (live 0 "" "")) (run_result 0 "" ""));
    reflexivity.
Defined.


(** * Further properties *)

(** ** Stripping *)

Lemma lstrip_idempotent (s : string) :
  PyStr.lstrip (PyStr.lstrip s) = PyStr.lstrip s.
Proof.
  induction s as [|c r IH]; [reflexivity|].
  cbn [PyStr.lstrip]. destruct (PyStr.isspace c) eqn:E; [exact IH|].
  cbn [PyStr.lstrip]. rewrite E. reflexivity.
Qed.

Lemma rstrip_idempotent (s : string) :
  PyStr.rstrip (PyStr.rstrip s) = PyStr.rstrip s.
Proof.
  induction s as [|c r IH]; [reflexivity|].
  cbn [PyStr.rstrip].
  destruct (negb (PyStr.nonempty (PyStr.rstrip r)) && PyStr.isspace c) eqn:E;
    [reflexivity|].
  cbn [PyStr.rstrip]. rewrite IH, E. reflexivity.
Qed.

(** [rstrip] does not uncover leading whitespace. *)
Lemma lstrip_rstrip_fixed (t : string) :
  PyStr.lstrip t = t -> PyStr.lstrip (PyStr.rstrip t) = PyStr.rstrip t.
Proof.
  destruct t as [|c r]; [reflexivity|]. intros E.
  pose proof (lstrip_fixed_head c r E) as Hc.
  cbn [PyStr.rstrip]. rewrite Hc, andb_false_r.
  cbn [PyStr.lstrip]. rewrite Hc. reflexivity.
Qed.

Lemma strip_no_leading (s : string) :
  PyStr.lstrip (PyStr.strip s) = PyStr.strip s.
Proof. unfold PyStr.strip. apply lstrip_rstrip_fixed, lstrip_idempotent. Qed.

Lemma strip_no_trailing (s : string) :
  PyStr.rstrip (PyStr.strip s) = PyStr.strip s.
Proof. unfold PyStr.strip. apply rstrip_idempotent. Qed.

Lemma strip_idempotent (s : string) :
  PyStr.strip (PyStr.strip s) = PyStr.strip s.
Proof.
  unfold PyStr.strip at 1. rewrite strip_no_leading. apply strip_no_trailing.
Qed.

Lemma lstrip_blank (s : string) : blank s = true -> PyStr.lstrip s = "".
Proof.
  induction s as [|c r IH]; [reflexivity|].
  cbn [blank PyStr.lstrip]. intros [Hc Hr]%andb_true_iff.
  rewrite Hc. exact (IH Hr).
Qed.

Lemma strip_blank (s : string) : blank s = true -> PyStr.strip s = "".
Proof. intros H. unfold PyStr.strip. rewrite (lstrip_blank s H). reflexivity. Qed.

(** ** The result formatter, further *)

(** X1. On a successful result whose output is only whitespace (a lone
    newline, say) and whose [stderr] is empty, [format_result] answers the
    no-output sentence. *)
Theorem format_result_blank_output (r : dict) (out : string) :
  r !! "success" = Some (VBool true) ->
  r !! "stdout" = Some (VStr out) ->
  r !! "stderr" = Some (VStr "") ->
  blank out = true ->
  format_result r = Some "Command completed successfully (no output)".
Proof.
  intros Hs Ho He Hb.
  rewrite (format_success_equation r out "" Hs Ho He).
  unfold success_text. cbn [PyStr.nonempty]. rewrite append_nil_r.
  rewrite (strip_blank out Hb). reflexivity.
Qed.

(** X2. The answer for a successful result is never empty and carries no
    leading or trailing whitespace. *)
Theorem format_result_success_is_stripped (r : dict) (out err : string) :
  r !! "success" = Some (VBool true) ->
  r !! "stdout" = Some (VStr out) ->
  r !! "stderr" = Some (VStr err) ->
  exists res,
    format_result r = Some res
    /\ res <> ""
    /\ PyStr.lstrip res = res
    /\ PyStr.rstrip res = res.
Proof.
  intros Hs Ho He.
  rewrite (format_success_equation r out err Hs Ho He).
  eexists. split; [reflexivity|].
  destruct (PyStr.nonempty (PyStr.strip (success_text out err))) eqn:E.
  - split; [|split].
    + intros Hempty. rewrite Hempty in E. discriminate E.
    + apply strip_no_leading.
    + apply strip_no_trailing.
  - repeat split. discriminate.
Qed.


(** On an error result [format_result] answers [Error: ] and the
    message, nothing else. *)
Lemma format_result_error_result (msg : string) :
  format_result (error_result msg) = Some ("Error: " +:+ msg).
Proof.
  unfold format_result, dict_get, dict_get_or.
  destruct (error_result_lookup msg) as (Hs & He & _ & _ & Hr).
  rewrite Hs, He, Hr. cbn [default from_option id truthy py_str PyStr.nonempty].
  rewrite append_nil_r. reflexivity.
Qed.

(** ** Construction, further *)

(** X4. A password given as whitespace only is not replaced by the
    configured one: it is stripped to nothing and the client is not
    configured, whatever the settings hold. *)
Theorem SSHClient_init_blank_argument (Session : Type) (settings : Settings)
    (h : option string) (p : option Z) (u : option string) (pw : string) :
  pw <> "" ->
  blank pw = true ->
  configured (SSHClient_init (Session := Session) settings h p u (Some pw))
  = false.
Proof.
  intros Hne Hb. unfold configured, SSHClient_init.
  cbn [host user password].
  destruct pw as [|c r]; [congruence|]. cbn [str_or PyStr.nonempty].
  rewrite (strip_blank _ Hb). apply andb_false_r.
Qed.

(** X5. A new client holds no session, and its host, user and password
    are free of surrounding whitespace: stripping them again changes
    nothing. *)
Theorem SSHClient_init_stripped (Session : Type) (settings : Settings)
    (h : option string) (p : option Z) (u pw : option string) :
  let c := SSHClient_init (Session := Session) settings h p u pw in
  _client c = None
  /\ PyStr.strip (host c) = host c
  /\ PyStr.strip (user c) = user c
  /\ PyStr.strip (password c) = password c.
Proof.
  cbn. repeat split; apply strip_idempotent.
Qed.

Section Sessions.

Context {World Session Channel : Type}.
Context `{!Paramiko World Session Channel}.

Implicit Types (m : machine World Session Channel).
Implicit Types (path command : string).

Ltac mrun :=
  repeat
    (progress
       (unfold try_except, bind, ret, raise, lib, get_self, set_client,
          exec_command, close_session, recv_exit_status, read, _connect;
        cbv beta iota;
        cbn [self world trace host port user password _client])).

Lemma same_config_refl (a : SSHClient Session) : same_config a a.
Proof. repeat split. Qed.

Lemma connects_app (a b : list (event Session Channel)) :
  connects (a ++ b) = (connects a + connects b)%nat.
Proof. unfold connects. rewrite List.filter_app, List.length_app. reflexivity. Qed.

Lemma execute_body_run_on command timeout :
  execute_body command timeout
  = bind _get_client (fun client => run_on client command timeout).
Proof. reflexivity. Qed.

(** Running a command on a session: the command is sent first, nothing
    that follows is a connection attempt, and the object is not touched. *)
Lemma run_on_spec (s : Session) command timeout m :
  exists r m' evs,
    run_on s command timeout m = (r, m')
    /\ self m' = self m
    /\ trace m' = trace m ++ EvExecCommand s command timeout :: evs
    /\ connects evs = 0%nat
    /\ match r with
       | Return d => exists code out err, d = run_result code out err
       | Raise _ => True
       end.
Proof.
  unfold run_on. mrun.
  destruct (ssh_exec_command s command timeout (world m))
    as [[[[i o] e']|ex] w1]; mrun;
    [destruct (ssh_recv_exit_status o w1) as [[code|ex] w2]; mrun;
     [destruct (ssh_read o w2) as [[ob|ex] w3]; mrun;
      [destruct (ssh_read e' w3) as [[eb|ex] w4]; mrun|]|]|].
  all: eexists _, _, _; (split; [reflexivity|]);
    cbn [self world trace]; (split; [reflexivity|]);
    (split; [rewrite <- ?List.app_assoc; reflexivity|]);
    (split; [reflexivity|]); eauto.
Qed.

(** Getting a session: at most one connection attempt, the configuration
    is kept, and a returned session is the stored one. *)
Lemma _get_client_spec m :
  exists r m' evs,
    _get_client m = (r, m')
    /\ trace m' = trace m ++ evs
    /\ (connects evs <= 1)%nat
    /\ same_config (self m') (self m)
    /\ match r with
       | Return s => _client (self m') = Some s
       | Raise _ => _client (self m') = None
       end.
Proof.
  unfold _get_client. mrun.
  destruct (_client (self m)) as [cached|] eqn:Hcached; mrun.
  - destruct (ssh_exec_command cached "echo" 5 (world m))
      as [[chans|ex] w1]; mrun.
    + eexists _, _, _; (split; [reflexivity|]); cbn [self world trace].
      repeat split; [cbn; lia | exact Hcached].
    + destruct (ssh_close cached w1) as [[[]|ec] w2]; mrun;
        destruct (ssh_connect (host (self m)) (port (self m)) (user (self m))
                    (password (self m)) 30 w2) as [[fresh|ex'] w3]; mrun;
        eexists _, _, _; (split; [reflexivity|]); cbn [self world trace];
        (split; [rewrite <- ?List.app_assoc; reflexivity|]);
        repeat split; cbn; lia.
  - destruct (ssh_connect (host (self m)) (port (self m)) (user (self m))
                (password (self m)) 30 (world m)) as [[fresh|ex'] w3]; mrun;
      eexists _, _, _; (split; [reflexivity|]); cbn [self world trace];
      (split; [reflexivity|]); repeat split; try (cbn; lia); exact Hcached.
Qed.

(** What every call of [execute] does. *)
Lemma execute_spec command timeout m :
  exists d m' evs,
    execute command timeout m = (Return d, m')
    /\ trace m' = trace m ++ evs
    /\ (connects evs <= 1)%nat
    /\ same_config (self m') (self m)
    /\ ((exists msg, d = error_result msg)
        \/ (exists code out err, d = run_result code out err)
           /\ exists s, _client (self m') = Some s
                        /\ In (EvExecCommand s command timeout) evs).
Proof.
  unfold execute. unfold bind at 1, get_self. cbv beta iota.
  destruct (configured (self m)); cbn [negb].
  2:{ exists (error_result not_configured_error), m, [].
      split; [reflexivity|]. rewrite List.app_nil_r.
      repeat split; [cbn; lia | left; eauto]. }
  unfold try_except. rewrite execute_body_run_on. unfold bind at 1.
  destruct (_get_client_spec m) as (r & m1 & evs1 & Hget & Ht1 & Hc1 & Hcfg1 & Hr).
  rewrite Hget. destruct r as [s|ex].
  - destruct (run_on_spec s command timeout m1)
      as (r2 & m2 & evs2 & Hrun & Hself & Ht2 & Hc2 & Hr2).
    rewrite Hrun.
    assert (Htrace : trace m2 = trace m ++ evs1 ++ EvExecCommand s command timeout :: evs2).
    { rewrite Ht2, Ht1, <- List.app_assoc. reflexivity. }
    assert (Hcount : (connects (evs1 ++ EvExecCommand s command timeout :: evs2) <= 1)%nat).
    { rewrite connects_app. change (EvExecCommand s command timeout :: evs2)
        with ([EvExecCommand s command timeout] ++ evs2).
      rewrite connects_app, Hc2. cbn. lia. }
    destruct r2 as [d|ex].
    + exists d, m2, (evs1 ++ EvExecCommand s command timeout :: evs2).
      split; [reflexivity|]. split; [exact Htrace|]. split; [exact Hcount|].
      split; [rewrite Hself; exact Hcfg1|].
      right. split; [exact Hr2|]. exists s. split; [rewrite Hself; exact Hr|].
      apply List.in_or_app. right. left. reflexivity.
    + unfold execute_handler, ret.
      destruct (isinstance ex AuthenticationException);
        [|destruct (isinstance ex SSHException)];
        eexists _, m2, _; (split; [reflexivity|]);
        (split; [exact Htrace|]); (split; [exact Hcount|]);
        (split; [rewrite Hself; exact Hcfg1|]); left; eauto.
  - unfold execute_handler, ret.
    destruct (isinstance ex AuthenticationException);
      [|destruct (isinstance ex SSHException)];
      eexists _, m1, _; (split; [reflexivity|]);
      (split; [exact Ht1|]); (split; [exact Hc1|]);
      (split; [exact Hcfg1|]); left; eauto.
Qed.

(** X6. Each call of [execute] makes at most one connection attempt,
    only adds to the trace, and never changes the host, port, user or
    password of the client. *)
Theorem execute_connects_at_most_once command timeout m :
  exists d m' evs,
    execute command timeout m = (Return d, m')
    /\ trace m' = trace m ++ evs
    /\ (connects evs <= 1)%nat
    /\ same_config (self m') (self m).
Proof.
  destruct (execute_spec command timeout m)
    as (d & m' & evs & He & Ht & Hc & Hcfg & _).
  exists d, m', evs. auto.
Qed.

(** X7. When [execute] returns a result without an [error] key, the
    command was sent on a session and that session is the one the client
    now holds. *)
Theorem execute_ran_on_stored_session command timeout m (d : dict) m' :
  execute command timeout m = (Return d, m') ->
  d !! "error" = None ->
  exists s evs,
    _client (self m') = Some s
    /\ trace m' = trace m ++ evs
    /\ In (EvExecCommand s command timeout) evs.
Proof.
  intros Hexec Hnoerr.
  destruct (execute_spec command timeout m)
    as (d0 & m0 & evs & He & Ht & _ & _ & Hshape).
  rewrite Hexec in He. injection He as <- <-.
  destruct Hshape as [(msg & ->) | (_ & s & Hs & Hin)].
  - destruct (error_result_lookup msg) as (_ & Herr & _). congruence.
  - exists s, evs. auto.
Qed.

Lemma live_reuse_spec command timeout m (cached : Session)
    (chans : Channel * Channel * Channel) (w1 : World) :
  configured (self m) = true ->
  _client (self m) = Some cached ->
  ssh_exec_command cached "echo" 5 (world m) = (Return chans, w1) ->
  exists d m' evs,
    execute command timeout m = (Return d, m')
    /\ self m' = self m
    /\ trace m' =
         trace m
         ++ EvExecCommand cached "echo" 5
            :: EvExecCommand cached command timeout :: evs
    /\ connects evs = 0%nat.
Proof.
  intros Hc Hcached Hprobe.
  unfold execute. unfold bind at 1, get_self. cbv beta iota.
  rewrite Hc. cbn [negb].
  unfold try_except. rewrite execute_body_run_on. unfold bind at 1.
  assert (Hget : _get_client m
                 = (Return cached,
                    {| self := self m; world := w1;
                       trace := trace m ++ [EvExecCommand cached "echo" 5] |})).
  { unfold _get_client. mrun. rewrite Hcached. mrun. rewrite Hprobe. reflexivity. }
  rewrite Hget.
  destruct (run_on_spec cached command timeout
              {| self := self m; world := w1;
                 trace := trace m ++ [EvExecCommand cached "echo" 5] |})
    as (r & m2 & evs & Hrun & Hself & Ht & Hn & _).
  rewrite Hrun. cbn [self trace] in Hself, Ht.
  rewrite <- List.app_assoc in Ht.
  destruct r as [d|ex].
  - exists d, m2, evs. auto.
  - unfold execute_handler, ret.
    destruct (isinstance ex AuthenticationException);
      [|destruct (isinstance ex SSHException)];
      eexists _, m2, evs; auto.
Qed.

(** X8. A cached session that answers the probe is reused: the command
    is sent on it right after the probe, no connection attempt is made,
    and the client is left exactly as it was. *)
Theorem execute_reuses_live_session command timeout m (cached : Session)
    (chans : Channel * Channel * Channel) (w1 : World) :
  configured (self m) = true ->
  _client (self m) = Some cached ->
  ssh_exec_command cached "echo" 5 (world m) = (Return chans, w1) ->
  exists d m' evs,
    execute command timeout m = (Return d, m')
    /\ self m' = self m
    /\ trace m' =
         trace m
         ++ EvExecCommand cached "echo" 5
            :: EvExecCommand cached command timeout :: evs
    /\ connects evs = 0%nat.
Proof. intros. eapply live_reuse_spec; eassumption. Qed.

Lemma first_use_spec command timeout m
    (rconn : outcome Session) (w1 : World) :
  configured (self m) = true ->
  _client (self m) = None ->
  ssh_connect (host (self m)) (port (self m)) (user (self m))
              (password (self m)) 30 (world m) = (rconn, w1) ->
  exists d m' rest,
    execute command timeout m = (Return d, m')
    /\ trace m' =
         trace m
         ++ EvConnect (host (self m)) (port (self m)) (user (self m))
                      (password (self m)) 30 :: rest
    /\ connects rest = 0%nat
    /\ match rconn with
       | Raise e =>
           rest = [] /\ m' = {| self := self m; world := w1; trace := trace m' |}
           /\ exists msg, d = error_result msg
       | Return fresh =>
           _client (self m') = Some fresh
           /\ exists rest', rest = EvExecCommand fresh command timeout :: rest'
       end.
Proof.
  intros Hc Hnone Hconn.
  unfold execute. unfold bind at 1, get_self. cbv beta iota.
  rewrite Hc. cbn [negb].
  unfold try_except. rewrite execute_body_run_on. unfold bind at 1.
  unfold _get_client. mrun. rewrite Hnone. mrun. rewrite Hconn. mrun.
  destruct rconn as [fresh|e].
  - match goal with
    | |- context [run_on fresh command timeout ?m1] =>
        destruct (run_on_spec fresh command timeout m1)
          as (r & m2 & evs & Hrun & Hself & Ht & Hn & _);
        rewrite Hrun; cbn [self trace] in Hself, Ht
    end.
    rewrite <- List.app_assoc in Ht.
    destruct r as [d|ex].
    + exists d, m2, (EvExecCommand fresh command timeout :: evs).
      split; [reflexivity|]. split; [exact Ht|]. split; [exact Hn|].
      split; [rewrite Hself; reflexivity | eauto].
    + unfold execute_handler, ret.
      destruct (isinstance ex AuthenticationException);
        [|destruct (isinstance ex SSHException)];
        eexists _, m2, (EvExecCommand fresh command timeout :: evs);
        (split; [reflexivity|]); (split; [exact Ht|]); (split; [exact Hn|]);
        (split; [rewrite Hself; reflexivity | eauto]).
  - unfold execute_handler, ret.
    destruct (isinstance e AuthenticationException);
      [|destruct (isinstance e SSHException)];
      eexists _, _, []; (split; [reflexivity|]); cbn [self world trace];
      (split; [reflexivity|]); (split; [reflexivity|]);
      (split; [reflexivity|]); (split; [|eauto]);
      destruct m as [[h p u pw cl] w t]; cbn in *; subst cl; reflexivity.
Qed.


Lemma close_spec m :
  exists m',
    close m = (Return tt, m')
    /\ _client (self m') = None
    /\ same_config (self m') (self m)
    /\ trace m' =
         trace m ++ match _client (self m) with
                    | Some cached => [EvClose cached]
                    | None => []
                    end
    /\ close m' = (Return tt, m').
Proof.
  unfold close. mrun.
  destruct (_client (self m)) as [cached|] eqn:Hcached; mrun.
  - destruct (ssh_close cached (world m)) as [[[]|ex] w1]; mrun;
      eexists; (split; [reflexivity|]); cbn [self world trace _client];
      repeat split.
  - exists m. rewrite Hcached, List.app_nil_r. repeat split.
Qed.

(** X10. [close] never raises, whatever the library's [close] does; it
    calls the library once if a session is stored and not at all
    otherwise, leaves no session stored, and closing again does
    nothing. *)
Theorem close_clears_and_is_idempotent m :
  exists m',
    close m = (Return tt, m')
    /\ _client (self m') = None
    /\ same_config (self m') (self m)
    /\ trace m' =
         trace m ++ match _client (self m) with
                    | Some cached => [EvClose cached]
                    | None => []
                    end
    /\ close m' = (Return tt, m').
Proof. intros. eapply close_spec; eassumption. Qed.

(** X11. After [close], the next [execute] of a configured client does
    not probe: the first call it makes is a connection attempt. *)
Theorem execute_after_close_connects command timeout m :
  configured (self m) = true ->
  exists mc d m' rest,
    close m = (Return tt, mc)
    /\ execute command timeout mc = (Return d, m')
    /\ trace m' =
         trace mc
         ++ EvConnect (host (self m)) (port (self m)) (user (self m))
                      (password (self m)) 30 :: rest
    /\ connects rest = 0%nat.
Proof.
  intros Hc.
  destruct (close_spec m)
    as (mc & Hclose & Hnone & (Hh & Hp & Hu & Hpw) & _).
  assert (Hc' : configured (self mc) = true).
  { unfold configured in *. rewrite Hh, Hu, Hpw. exact Hc. }
  destruct (ssh_connect (host (self mc)) (port (self mc)) (user (self mc))
              (password (self mc)) 30 (world mc)) as [rconn w1] eqn:Hconn.
  destruct (first_use_spec command timeout mc rconn w1 Hc' Hnone Hconn)
    as (d & m' & rest & He & Ht & Hn & _).
  exists mc, d, m', rest. rewrite Hh, Hp, Hu, Hpw in Ht.
  repeat split; assumption.
Qed.

(** ** Operations that format the result *)

Lemma format_result_run_result (code : Z) (out err : string) :
  exists res, format_result (run_result code out err) = Some res.
Proof.
  destruct (run_result_lookup code out err) as (Hs & _ & Ho & He & Hn).
  destruct (code =? 0) eqn:Hcode.
  - rewrite (format_success_equation _ out err Hs Ho He). eauto.
  - unfold format_result, dict_get. rewrite Hs. cbn [default from_option id truthy].
    eauto.
Qed.

(** What an operation that sends one command and formats the result
    does. *)
Lemma renders_spec (op : M string) (cmd : string) (timeout : Z) m :
  renders op cmd timeout ->
  exists d m',
    execute cmd timeout m = (Return d, m')
    /\ ((exists msg, d = error_result msg
                     /\ op m = (Return ("Error: " +:+ msg), m'))
        \/ (exists code out err res,
               d = run_result code out err
               /\ format_result d = Some res
               /\ op m = (Return res, m'))).
Proof.
  intros Hop.
  destruct (execute_spec cmd timeout m) as (d & m' & evs & He & _ & _ & _ & Hshape).
  exists d, m'. split; [exact He|].
  rewrite (Hop m). unfold bind. rewrite He.
  destruct Hshape as [(msg & ->) | ((code & out & err & ->) & _)].
  - left. exists msg. split; [reflexivity|].
    unfold format_result, dict_get, dict_get_or.
    destruct (error_result_lookup msg) as (Hs & Herr & _ & _ & Hr).
    rewrite Hs, Herr, Hr.
    cbn [default from_option id truthy py_str PyStr.nonempty formatted].
    rewrite append_nil_r. reflexivity.
  - right. destruct (format_result_run_result code out err) as (res & Hres).
    exists code, out, err, res. rewrite Hres. auto.
Qed.



Lemma exec_execute_renders command timeout :
  command <> "" -> renders (exec_execute command timeout) command timeout.
Proof.
  intros Hne m. unfold exec_execute.
  destruct command; [congruence | reflexivity].
Qed.



Lemma service_status_renders (service : string) :
  renders (service_status service)
    ("systemctl status " +:+ service +:+ " 2>/dev/null || service "
     +:+ service +:+ " status") 30.
Proof. intros m. reflexivity. Qed.








(** X14. An operation that sends one command and formats the result
    turns a result that carries an [error] into [Error: ] and that
    message, keeping the state [execute] left. *)
Theorem rendering_propagates_error (op : M string) (cmd : string) (timeout : Z)
    m (d : dict) m' (msg : string) :
  renders op cmd timeout ->
  execute cmd timeout m = (Return d, m') ->
  d !! "error" = Some (VStr msg) ->
  op m = (Return ("Error: " +:+ msg), m').
Proof.
  intros Hop Hexec Herr.
  destruct (renders_spec op cmd timeout m Hop) as (d0 & m0 & He & Hcases).
  rewrite Hexec in He. injection He as <- <-.
  destruct Hcases as [(msg' & -> & ->) | (code & out & err & res & -> & _)].
  - destruct (error_result_lookup msg') as (_ & E & _).
    rewrite E in Herr. injection Herr as ->. reflexivity.
  - destruct (run_result_lookup code out err) as (_ & _ & _ & _ & E).
    congruence.
Qed.

(** X15. [exec.execute] answers an empty command with a fixed sentence
    and calls nothing, configured or not; any other command is sent as
    it is, with the caller's timeout, and the result formatted. *)
Theorem exec_execute_guard command timeout :
  (command = "" ->
   forall m, exec_execute command timeout m
             = (Return "Error: No command provided", m))
  /\ (command <> "" -> renders (exec_execute command timeout) command timeout).
Proof.
  split.
  - intros -> m. reflexivity.
  - apply exec_execute_renders.
Qed.


(** ** [file_exists] and [check_status] *)

Lemma bind_Return {A B : Type} (c : M A) (k : A -> M B) m (a : A) m' :
  c m = (Return a, m') -> bind c k m = k a m'.
Proof. intros H. unfold bind. rewrite H. reflexivity. Qed.

Lemma bind_ret {A B : Type} (a : A) (k : A -> M B) m :
  bind (ret a) k m = k a m.
Proof. reflexivity. Qed.

(** The [stdout] a caller reads with [result.get("stdout", "")] from a
    result of [execute]. *)
Lemma stdout_of_result (d : dict) :
  (exists msg, d = error_result msg)
  \/ (exists code out err, d = run_result code out err) ->
  exists out, dict_get_or d "stdout" (VStr "") = VStr out
              /\ (d !! "stdout" = None -> out = "")
              /\ (forall s, d !! "stdout" = Some (VStr s) -> out = s).
Proof.
  unfold dict_get_or.
  intros [(msg & ->) | (code & out & err & ->)].
  - destruct (error_result_lookup msg) as (_ & _ & _ & Ho & _).
    rewrite Ho. exists "". repeat split. discriminate.
  - destruct (run_result_lookup code out err) as (_ & _ & Ho & _).
    rewrite Ho. exists out. repeat split; congruence.
Qed.

Lemma file_exists_spec path m :
  exists d1 m1 out,
    execute ("test -e " +:+ path +:+ " && echo 'exists' || echo 'not found'") 30 m
    = (Return d1, m1)
    /\ dict_get_or d1 "stdout" (VStr "") = VStr out
    /\ (d1 !! "stdout" = None -> out = "")
    /\ (forall s, d1 !! "stdout" = Some (VStr s) -> out = s)
    /\ if String.eqb (PyStr.strip out) "exists" then
         exists d2 m2 info,
           execute ("file " +:+ path) 30 m1 = (Return d2, m2)
           /\ dict_get_or d2 "stdout" (VStr "") = VStr info
           /\ file_exists path m
              = (Return (<["exists" := VBool true]>
                           (<["info" := VStr (PyStr.strip info)]> ∅)), m2)
       else
         file_exists path m = (Return (<["exists" := VBool false]> ∅), m1).
Proof.
  destruct (execute_spec
              ("test -e " +:+ path +:+ " && echo 'exists' || echo 'not found'")
              30 m) as (d1 & m1 & evs & He & _ & _ & _ & Hshape).
  assert (Hshape1 : (exists msg, d1 = error_result msg)
                    \/ (exists code out err, d1 = run_result code out err)).
  { destruct Hshape as [H | [H _]]; [left | right]; exact H. }
  destruct (stdout_of_result d1 Hshape1) as (out & Hout & Hnone & Hsome).
  exists d1, m1, out. split; [exact He|]. split; [exact Hout|].
  split; [exact Hnone|]. split; [exact Hsome|].
  unfold file_exists. rewrite (bind_Return _ _ _ _ _ He).
  rewrite Hout. unfold str_strip. rewrite bind_ret.
  destruct (String.eqb (PyStr.strip out) "exists"); [|reflexivity].
  destruct (execute_spec ("file " +:+ path) 30 m1)
    as (d2 & m2 & evs2 & He2 & _ & _ & _ & Hshape2).
  assert (Hshape2' : (exists msg, d2 = error_result msg)
                     \/ (exists code out err, d2 = run_result code out err)).
  { destruct Hshape2 as [H | [H _]]; [left | right]; exact H. }
  destruct (stdout_of_result d2 Hshape2') as (info & Hinfo & _).
  exists d2, m2, info. split; [exact He2|]. split; [exact Hinfo|].
  rewrite (bind_Return _ _ _ _ _ He2). rewrite Hinfo, bind_ret. reflexivity.
Qed.

(** X17. [file_exists] never raises, and its answer is either
    [{exists: False}] or [{exists: True, info: ...}]: the [info] key is
    there exactly when [exists] is true. *)
Theorem file_exists_returns path m :
  exists d m',
    file_exists path m = (Return d, m')
    /\ (d !! "exists" = Some (VBool false) /\ d !! "info" = None
        \/ d !! "exists" = Some (VBool true)
           /\ exists info, d !! "info" = Some (VStr info)).
Proof.
  destruct (file_exists_spec path m) as (d1 & m1 & out & _ & _ & _ & _ & H).
  destruct (String.eqb (PyStr.strip out) "exists").
  - destruct H as (d2 & m2 & info & _ & _ & ->).
    eexists _, _. split; [reflexivity|]. right. split; [reflexivity|].
    eexists. reflexivity.
  - rewrite H. eexists _, _. split; [reflexivity|]. left. split; reflexivity.
Qed.

(** X18. When the test command could not be run (the result carries an
    [error]: no credentials, refused login, dead connection),
    [file_exists] answers [{exists: False}], as for a missing file, and
    does not send the [file] command. *)
Theorem file_exists_failure_reads_as_missing path m (d1 : dict) m1 (msg : string) :
  execute ("test -e " +:+ path +:+ " && echo 'exists' || echo 'not found'") 30 m
  = (Return d1, m1) ->
  d1 !! "error" = Some (VStr msg) ->
  file_exists path m = (Return (<["exists" := VBool false]> ∅), m1).
Proof.
  intros Hexec Herr.
  destruct (file_exists_spec path m) as (d & m' & out & He & _ & Hnone & _ & H).
  rewrite Hexec in He. injection He as <- <-.
  assert (Hout : out = "").
  { apply Hnone.
    destruct (execute_spec
                ("test -e " +:+ path +:+ " && echo 'exists' || echo 'not found'")
                30 m) as (d & m' & evs & He & _ & _ & _ & Hshape).
    rewrite Hexec in He. injection He as <- <-.
    destruct Hshape as [(msg' & ->) | ((code & o & e & ->) & _)].
    - apply error_result_lookup.
    - destruct (run_result_lookup code o e) as (_ & _ & _ & _ & E). congruence. }
  subst out. exact H.
Qed.

(** X19. When the test command ran, the answer depends on its stripped
    output alone, not on its exit code: [exists] is true exactly when
    the output is [exists], and then [info] is the stripped output of
    [file <path>]. *)
Theorem file_exists_decided_by_output path m (d1 : dict) m1 (out : string) :
  execute ("test -e " +:+ path +:+ " && echo 'exists' || echo 'not found'") 30 m
  = (Return d1, m1) ->
  d1 !! "stdout" = Some (VStr out) ->
  (PyStr.strip out <> "exists" ->
   file_exists path m = (Return (<["exists" := VBool false]> ∅), m1))
  /\ (PyStr.strip out = "exists" ->
      exists d2 m2 info,
        execute ("file " +:+ path) 30 m1 = (Return d2, m2)
        /\ dict_get_or d2 "stdout" (VStr "") = VStr info
        /\ file_exists path m
           = (Return (<["exists" := VBool true]>
                        (<["info" := VStr (PyStr.strip info)]> ∅)), m2)).
Proof.
  intros Hexec Hout.
  destruct (file_exists_spec path m) as (d & m' & o & He & _ & _ & Hsome & H).
  rewrite Hexec in He. injection He as <- <-.
  rewrite (Hsome out Hout) in H.
  split.
  - intros Hne. apply String.eqb_neq in Hne. rewrite Hne in H. exact H.
  - intros Heq. apply String.eqb_eq in Heq. rewrite Heq in H. exact H.
Qed.




(** ** Two calls in a row *)

(** X22. After an [execute] that ran its command, the next [execute]
    finds the stored session; if that session answers the probe, the
    second call makes no connection attempt and leaves the client as the
    first call left it. *)
Theorem second_execute_reuses_session (c1 c2 : string) (t1 t2 : Z) m
    (d1 : dict) m1 :
  execute c1 t1 m = (Return d1, m1) ->
  d1 !! "error" = None ->
  (forall s, _client (self m1) = Some s ->
             exists chans w, ssh_exec_command s "echo" 5 (world m1)
                             = (Return chans, w)) ->
  exists s d2 m2 evs,
    _client (self m1) = Some s
    /\ execute c2 t2 m1 = (Return d2, m2)
    /\ self m2 = self m1
    /\ trace m2 =
         trace m1
         ++ EvExecCommand s "echo" 5 :: EvExecCommand s c2 t2 :: evs
    /\ connects evs = 0%nat.
Proof.
  intros Hexec Hnoerr Hlive.
  assert (Hc : configured (self m) = true).
  { destruct (configured (self m)) eqn:Hc; [reflexivity|].
    unfold execute, bind, get_self in Hexec. rewrite Hc in Hexec.
    injection Hexec as <- _.
    destruct (error_result_lookup not_configured_error) as (_ & E & _).
    congruence. }
  destruct (execute_spec c1 t1 m)
    as (d & m' & evs1 & He & _ & _ & (Hh & _ & Hu & Hpw) & Hshape).
  rewrite Hexec in He. injection He as <- <-.
  destruct Hshape as [(msg & ->) | (_ & s & Hs & _)].
  { destruct (error_result_lookup msg) as (_ & E & _). congruence. }
  assert (Hc1 : configured (self m1) = true).
  { unfold configured in *. rewrite Hh, Hu, Hpw. exact Hc. }
  destruct (Hlive s Hs) as (chans & w & Hprobe).
  destruct (live_reuse_spec c2 t2 m1 s chans w Hc1 Hs Hprobe)
    as (d2 & m2 & evs & He2 & Hself & Ht & Hn).
  exists s, d2, m2, evs. auto.
Qed.

End Sessions.

(** ** The further properties on the scripted host *)

Lemma format_result_blank_output_witness :
  format_result (run_result 0 PyStr.newline "")
  = Some "Command completed successfully (no output)".
Proof.
  apply (format_result_blank_output (run_result 0 PyStr.newline "") PyStr.newline
           eq_refl eq_refl eq_refl eq_refl).
Defined.

Lemma format_result_success_is_stripped_witness :
  exists res,
    format_result (run_result 0 (" file1 " +:+ PyStr.newline) "") = Some res
    /\ res <> ""
    /\ PyStr.lstrip res = res
    /\ PyStr.rstrip res = res.
Proof.
  apply (format_result_success_is_stripped
           (run_result 0 (" file1 " +:+ PyStr.newline) "")
           (" file1 " +:+ PyStr.newline) "" eq_refl eq_refl eq_refl).
Defined.

Lemma SSHClient_init_blank_argument_witness :
  configured (SSHClient_init (Session := nat)
                (mkSettings "10.0.0.1" 22 "admin" "secret")
                None None None (Some " ")) = false.
Proof.
  apply SSHClient_init_blank_argument; [discriminate | reflexivity].
Defined.

Lemma execute_ran_on_stored_session_witness :
  exists s evs,
    _client (self (at_state (Some 3%nat) [] first_ls)) = Some s
    /\ trace (at_state (Some 3%nat) [] first_ls)
       = trace (start None [Ok 3 []; Ok 0 []; Ok 0 []; Ok 0 (bytes "file1"); Ok 0 []])
         ++ evs
    /\ In (EvExecCommand s "ls" 30) evs.
Proof.
  apply (@execute_ran_on_stored_session _ _ _ paramiko "ls" 30
           (start None [Ok 3 []; Ok 0 []; Ok 0 []; Ok 0 (bytes "file1"); Ok 0 []])
           (run_result 0 "file1" "")
           (at_state (Some 3%nat) [] first_ls)
           eq_refl eq_refl).
Defined.

Lemma execute_reuses_live_session_witness :
  exists d m' evs,
    execute "ls" 30 (start (Some 7%nat) (live 2 "" "ls: cannot access"))
    = (Return d, m')
    /\ self m' = testclient (Some 7%nat)
    /\ trace m'
       = [] ++ EvExecCommand 7%nat "echo" 5 :: EvExecCommand 7%nat "ls" 30 :: evs
    /\ connects evs = 0%nat.
Proof.
  apply (@execute_reuses_live_session _ _ _ paramiko "ls" 30
           (start (Some 7%nat) (live 2 "" "ls: cannot access"))
           7%nat (0%nat, 1%nat, 2%nat)
           [Ok 0 []; Ok 2 []; Ok 0 (bytes ""); Ok 0 (bytes "ls: cannot access")]
           eq_refl eq_refl eq_refl).
Defined.


Lemma execute_after_close_connects_witness :
  exists mc d m' rest,
    close (start (Some 7%nat) [Ok 0 []; Ok 3 []; Ok 0 []; Ok 0 []; Ok 0 []; Ok 0 []])
    = (Return tt, mc)
    /\ execute "ls" 30 mc = (Return d, m')
    /\ trace m'
       = trace mc ++ EvConnect "10.0.0.1" 22 "testuser" "testpass" 30 :: rest
    /\ connects rest = 0%nat.
Proof.
  apply (@execute_after_close_connects _ _ _ paramiko "ls" 30
           (start (Some 7%nat) [Ok 0 []; Ok 3 []; Ok 0 []; Ok 0 []; Ok 0 []; Ok 0 []])
           eq_refl).
Defined.


Lemma rendering_propagates_error_witness :
  service_status "docker"
    (start None [Fail (Exn AuthenticationException "Authentication failed.")])
  = (Return "Error: Authentication failed. Check username and password.",
     {| self := testclient None; world := [];
        trace := [EvConnect "10.0.0.1" 22 "testuser" "testpass" 30] |}).
Proof.
  apply (@rendering_propagates_error _ _ _ paramiko _ _ _
           (start None [Fail (Exn AuthenticationException "Authentication failed.")])
           (error_result authentication_error) _ authentication_error
           (service_status_renders "docker") eq_refl eq_refl).
Defined.

Lemma exec_execute_guard_witness :
  exec_execute "" 30 unconfigured
  = (Return "Error: No command provided", unconfigured)
  /\ renders (Session := nat) (exec_execute "uptime" 10) "uptime" 10.
Proof.
  split.
  - apply (proj1 (exec_execute_guard "" 30) eq_refl).
  - apply (proj2 (exec_execute_guard "uptime" 10)). discriminate.
Defined.

Lemma file_exists_failure_reads_as_missing_witness :
  file_exists "/etc/passwd" unconfigured
  = (Return (<["exists" := VBool false]> ∅), unconfigured).
Proof.
  apply (@file_exists_failure_reads_as_missing _ _ _ paramiko
           "/etc/passwd" unconfigured
           (error_result not_configured_error) unconfigured
           not_configured_error eq_refl eq_refl).
Defined.

Lemma file_exists_decided_by_output_witness :
  exists d2 m2 info,
    execute "file /tmp/test" 30
      {| self := testclient (Some 7%nat);
         world := live 0 ("/tmp/test: ASCII text" +:+ PyStr.newline) "";
         trace := [EvExecCommand 7%nat "echo" 5;
                   EvExecCommand 7%nat
                     "test -e /tmp/test && echo 'exists' || echo 'not found'" 30;
                   EvRecvExitStatus 1%nat; EvRead 1%nat; EvRead 2%nat] |}
    = (Return d2, m2)
    /\ dict_get_or d2 "stdout" (VStr "") = VStr info
    /\ file_exists "/tmp/test"
         (start (Some 7%nat)
            (live 0 ("exists" +:+ PyStr.newline) ""
             ++ live 0 ("/tmp/test: ASCII text" +:+ PyStr.newline) ""))
       = (Return (<["exists" := VBool true]>
                    (<["info" := VStr (PyStr.strip info)]> ∅)), m2).
Proof.
  apply (proj2 (@file_exists_decided_by_output _ _ _ paramiko
                  "/tmp/test"
                  (start (Some 7%nat)
                     (live 0 ("exists" +:+ PyStr.newline) ""
                      ++ live 0 ("/tmp/test: ASCII text" +:+ PyStr.newline) ""))
                  (run_result 0 ("exists" +:+ PyStr.newline) "")
                  _ ("exists" +:+ PyStr.newline) eq_refl eq_refl)).
  reflexivity.
Defined.


Lemma second_execute_reuses_session_witness :
  exists s d2 m2 evs,
    _client (self (at_state (Some 3%nat) (live 0 "up" "") first_ls)) = Some s
    /\ execute "uptime" 30 (at_state (Some 3%nat) (live 0 "up" "") first_ls)
       = (Return d2, m2)
    /\ self m2 = self (at_state (Some 3%nat) (live 0 "up" "") first_ls)
    /\ trace m2
       = trace (at_state (Some 3%nat) (live 0 "up" "") first_ls)
         ++ EvExecCommand s "echo" 5 :: EvExecCommand s "uptime" 30 :: evs
    /\ connects evs = 0%nat.
Proof.
  apply (@second_execute_reuses_session _ _ _ paramiko "ls" "uptime" 30 30
           (start None ([Ok 3 []; Ok 0 []; Ok 0 []; Ok 0 (bytes "file1"); Ok 0 []]
                        ++ live 0 "up" ""))
           (run_result 0 "file1" "")
           (at_state (Some 3%nat) (live 0 "up" "") first_ls)
           eq_refl eq_refl).
  intros s _. eexists _, _. reflexivity.
Defined.
